(** * vmnet: tun device emulation for Darwin (src/bsd/vmnet.c)

    A shallow embedding of the adapter that bridges the vmnet framework's
    callback-driven interface to a socket pair.  The process-wide statics of
    vmnet.c become one record, [globals]; every function of the file becomes
    a computation over that record which also emits the sequence of calls it
    makes to the operating system, to libdispatch, to the vmnet framework and
    to the logger.  What those collaborators answer is not decided by
    vmnet.c: each operation takes their answers as an argument.

    [macos_vmnet_open] and [macos_vmnet_close] block on a semaphore until
    the completion block they handed to the framework has run on
    [if_queue]; the embedding runs the block at that point of the caller.
    The bytes held by buffers are not represented: a buffer is the pair of
    its address and its length, as in [struct iovec]. *)

From Stdlib Require Import ZArith List String Bool Lia.
Import ListNotations.
Local Open Scope Z_scope.

(** ** Machine integers (LP64, as on Darwin) *)

Definition SSIZE_MAX : Z := 2 ^ 63 - 1.

(** Conversion of a value to [size_t]: reduction modulo 2^64. *)
Definition to_size_t (z : Z) : Z := z mod 2 ^ 64.

(** Conversion of a [size_t] to [ssize_t], as done by the [return] of
    [macos_vmnet_write]: values above [SSIZE_MAX] wrap to negative ones. *)
Definition to_ssize_t (z : Z) : Z :=
  let w := to_size_t z in
  if w <=? SSIZE_MAX then w else w - 2 ^ 64.

(** ** Framework and system types *)

(** [vmnet_return_t].  The ten codes that [str_vmnet_status] names, and
    [VMNET_UNLISTED] for any other code (the [default] branch). *)
Inductive vmnet_return_t : Type :=
| VMNET_SUCCESS
| VMNET_FAILURE
| VMNET_MEM_FAILURE
| VMNET_INVALID_ARGUMENT
| VMNET_SETUP_INCOMPLETE
| VMNET_INVALID_ACCESS
| VMNET_PACKET_TOO_BIG
| VMNET_BUFFER_EXHAUSTED
| VMNET_TOO_MANY_PACKETS
| VMNET_SHARING_SERVICE_BUSY
| VMNET_UNLISTED (code : nat).

(** The test [status == VMNET_SUCCESS]. *)
Definition is_success (s : vmnet_return_t) : bool :=
  match s with VMNET_SUCCESS => true | _ => false end.

(** Opaque references; [None] is the null reference. *)
Definition interface_ref    : Type := option positive.
Definition dispatch_queue_t : Type := option positive.
Definition pointer          : Type := option positive.

Definition is_null {A : Type} (r : option A) : bool :=
  match r with None => true | Some _ => false end.

Record iovec : Type := mk_iovec {
  iov_base : pointer;
  iov_len  : Z
}.

(** [struct vmpktdesc]; the field [vm_pkt_iov] points to one [iovec], kept
    here by value. *)
Record vmpktdesc : Type := mk_vmpktdesc {
  vm_pkt_size   : Z;
  vm_pkt_iov    : iovec;
  vm_pkt_iovcnt : Z;
  vm_flags      : Z
}.

(** Values stored in the interface description dictionary. *)
Inductive operating_mode : Type := VMNET_HOST_MODE.

Inductive xpc_value : Type :=
| XUint64 (v : operating_mode)
| XBool (b : bool)
| XString (s : string).

Inductive xpc_key : Type :=
| vmnet_operation_mode_key
| vmnet_enable_isolation_key
| vmnet_allocate_mac_address_key
| vmnet_start_address_key
| vmnet_end_address_key
| vmnet_subnet_mask_key.

(** ** The statics of vmnet.c *)

Record globals : Type := mk_globals {
  if_status       : vmnet_return_t;
  if_queue        : dispatch_queue_t;
  vmnet_if        : interface_ref;
  max_packet_size : Z;
  read_iov_in     : iovec;
  read_socket     : Z * Z
}.

(** The values the statics have when the process starts: [if_status] has an
    initialiser, the others are zero-initialised. *)
Definition initial_globals : globals :=
  {| if_status       := VMNET_SETUP_INCOMPLETE;
     if_queue        := None;
     vmnet_if        := None;
     max_packet_size := 0;
     read_iov_in     := mk_iovec None 0;
     read_socket     := (0, 0) |}.

Definition set_if_status (s : vmnet_return_t) (g : globals) : globals :=
  mk_globals s (if_queue g) (vmnet_if g) (max_packet_size g)
             (read_iov_in g) (read_socket g).

Definition set_if_queue (q : dispatch_queue_t) (g : globals) : globals :=
  mk_globals (if_status g) q (vmnet_if g) (max_packet_size g)
             (read_iov_in g) (read_socket g).

Definition set_vmnet_if (i : interface_ref) (g : globals) : globals :=
  mk_globals (if_status g) (if_queue g) i (max_packet_size g)
             (read_iov_in g) (read_socket g).

Definition set_max_packet_size (n : Z) (g : globals) : globals :=
  mk_globals (if_status g) (if_queue g) (vmnet_if g) n
             (read_iov_in g) (read_socket g).

Definition set_read_iov_in (v : iovec) (g : globals) : globals :=
  mk_globals (if_status g) (if_queue g) (vmnet_if g) (max_packet_size g)
             v (read_socket g).

Definition set_read_socket (p : Z * Z) (g : globals) : globals :=
  mk_globals (if_status g) (if_queue g) (vmnet_if g) (max_packet_size g)
             (read_iov_in g) p.

(** ** Calls made by vmnet.c *)

Inductive log_arg : Type :=
| ArgErrno                 (* strerror(errno) *)
| ArgString (s : string)
| ArgSize (n : Z).

Inductive event : Type :=
(* operating system *)
| EvSocketpair (result : option (Z * Z))
| EvMalloc (size : Z) (result : pointer)
| EvFree (p : pointer)
| EvClose (fd : Z)
| EvWritev (fd : Z) (base : pointer) (len : Z) (result : Z)
(* xpc and libdispatch *)
| EvXpcDictionaryCreate (contents : list (xpc_key * xpc_value))
| EvXpcRelease
| EvQueueCreate (label : string) (q : dispatch_queue_t)
| EvSemaphoreCreate
| EvSemaphoreSignal
| EvSemaphoreWait
| EvDispatchRelease (q : dispatch_queue_t)
| EvSemaphoreRelease
(* vmnet framework *)
| EvStartInterface (q : dispatch_queue_t) (result : interface_ref)
| EvSetEventCallback (i : interface_ref) (q : dispatch_queue_t) (handler : bool)
| EvStopInterface (i : interface_ref) (q : dispatch_queue_t)
| EvVmnetRead (i : interface_ref) (packet : vmpktdesc) (count : Z)
| EvVmnetWrite (i : interface_ref) (packet : vmpktdesc) (count : Z)
(* logger *)
| EvLog (format : string) (args : list log_arg).

(** The calls that enter the vmnet framework. *)
Definition is_framework_call (e : event) : bool :=
  match e with
  | EvStartInterface _ _ | EvSetEventCallback _ _ _ | EvStopInterface _ _
  | EvVmnetRead _ _ _ | EvVmnetWrite _ _ _ => true
  | _ => false
  end.

Definition is_vmnet_write (e : event) : bool :=
  match e with EvVmnetWrite _ _ _ => true | _ => false end.

Definition is_vmnet_read (e : event) : bool :=
  match e with EvVmnetRead _ _ _ => true | _ => false end.

Definition is_stop_interface (e : event) : bool :=
  match e with EvStopInterface _ _ => true | _ => false end.

Definition is_writev (e : event) : bool :=
  match e with EvWritev _ _ _ _ => true | _ => false end.

(** ** Computations over the statics that record their calls *)

Record outcome (A : Type) : Type := mk_outcome {
  retval : A;
  final  : globals;
  calls  : list event
}.
Arguments mk_outcome {A} _ _ _.
Arguments retval {A} _.
Arguments final {A} _.
Arguments calls {A} _.

Definition Run (A : Type) : Type := globals -> outcome A.

Definition ret {A : Type} (a : A) : Run A :=
  fun g => mk_outcome a g [].

Definition bind {A B : Type} (m : Run A) (k : A -> Run B) : Run B :=
  fun g =>
    match m g with
    | mk_outcome a g1 t1 =>
        match k a g1 with
        | mk_outcome b g2 t2 => mk_outcome b g2 (t1 ++ t2)
        end
    end.

(** Read a static. *)
Definition load {A : Type} (field : globals -> A) : Run A :=
  fun g => mk_outcome (field g) g [].

(** Assign a static. *)
Definition store (update : globals -> globals) : Run unit :=
  fun g => mk_outcome tt (update g) [].

(** Call a collaborator. *)
Definition call (e : event) : Run unit :=
  fun g => mk_outcome tt g [e].

Declare Scope run_scope.
Delimit Scope run_scope with run.
Notation "x <- m ;; k" := (bind m (fun x => k))
  (at level 100, m at next level, right associativity) : run_scope.
Notation "m ;; k" := (bind m (fun _ => k))
  (at level 100, right associativity) : run_scope.
Local Open Scope run_scope.

(** ** str_vmnet_status *)

Definition str_vmnet_status (status : vmnet_return_t) : string :=
  match status with
  | VMNET_SUCCESS => "success"
  | VMNET_FAILURE => "general failure (possibly not enough privileges)"
  | VMNET_MEM_FAILURE => "memory allocation failure"
  | VMNET_INVALID_ARGUMENT => "invalid argument specified"
  | VMNET_SETUP_INCOMPLETE => "interface setup is not complete"
  | VMNET_INVALID_ACCESS => "invalid access, permission denied"
  | VMNET_PACKET_TOO_BIG => "packet size is larger than MTU"
  | VMNET_BUFFER_EXHAUSTED => "buffers exhausted in kernel"
  | VMNET_TOO_MANY_PACKETS => "packet count exceeds limit"
  | VMNET_SHARING_SERVICE_BUSY => "conflict, sharing service is in use"
  | VMNET_UNLISTED _ => "unknown vmnet error"
  end%string.

(** ** macos_vmnet_open *)

(** What the collaborators answer during one call of [macos_vmnet_open].
    [start_param] is the completion handler's [interface_param]: [None] when
    it is null, otherwise the unsigned 64-bit value the dictionary holds
    under [vmnet_max_packet_size_key]. *)
Record open_answers : Type := mk_open_answers {
  socketpair_result : option (Z * Z);
  queue_result      : dispatch_queue_t;
  start_result      : interface_ref;
  start_status      : vmnet_return_t;
  start_param       : option Z;
  malloc_result     : pointer
}.

Definition if_desc : list (xpc_key * xpc_value) :=
  [ (vmnet_operation_mode_key, XUint64 VMNET_HOST_MODE);
    (vmnet_enable_isolation_key, XBool true);
    (vmnet_allocate_mac_address_key, XBool false);
    (vmnet_start_address_key, XString "10.255.2.77");
    (vmnet_end_address_key, XString "10.255.2.255");
    (vmnet_subnet_mask_key, XString "255.255.255.0") ].

(** The completion block handed to [vmnet_start_interface].  It runs on
    [if_queue] while [macos_vmnet_open] waits on [if_started_sem]. *)
Definition start_completion (status : vmnet_return_t)
    (interface_param : option Z) : Run unit :=
  store (set_if_status status) ;;
  match interface_param with
  | Some v =>
      if is_success status
      then store (set_max_packet_size (to_size_t v))
      else ret tt
  | None => ret tt
  end ;;
  call EvSemaphoreSignal.

Definition macos_vmnet_open (a : open_answers) : Run Z :=
  call (EvSocketpair (socketpair_result a)) ;;
  match socketpair_result a with
  | None =>
      call (EvLog "Unable to create socket: %s" [ArgErrno]) ;;
      ret (-1)
  | Some fds =>
      store (set_read_socket fds) ;;
      call (EvXpcDictionaryCreate if_desc) ;;
      call (EvQueueCreate "org.tinc-vpn.vmnet.if_queue" (queue_result a)) ;;
      store (set_if_queue (queue_result a)) ;;
      call EvSemaphoreCreate ;;
      q <- load if_queue ;;
      call (EvStartInterface q (start_result a)) ;;
      store (set_vmnet_if (start_result a)) ;;
      start_completion (start_status a) (start_param a) ;;
      call EvSemaphoreWait ;;
      call EvSemaphoreRelease ;;
      call EvXpcRelease ;;
      status <- load if_status ;;
      if negb (is_success status) then
        call (EvLog "Unable to create vmnet device: %s"
                    [ArgString (str_vmnet_status status)]) ;;
        ret (-1)
      else
        n <- load max_packet_size ;;
        call (EvMalloc n (malloc_result a)) ;;
        store (set_read_iov_in (mk_iovec (malloc_result a) n)) ;;
        i <- load vmnet_if ;;
        q <- load if_queue ;;
        call (EvSetEventCallback i q true) ;;
        s <- load read_socket ;;
        ret (fst s)
  end.

(** ** macos_vmnet_close *)

(** The status the stop completion block receives. *)
Record close_answers : Type := mk_close_answers {
  stop_status : vmnet_return_t
}.

Definition macos_vmnet_close (a : close_answers) (fd : Z) : Run Z :=
  i <- load vmnet_if ;;
  s <- load read_socket ;;
  if is_null i || negb (fd =? fst s) then
    call (EvLog "Attempt to close broken vmnet device: %s" [ArgErrno]) ;;
    ret (-1)
  else
    call (EvSetEventCallback i None false) ;;
    call EvSemaphoreCreate ;;
    q <- load if_queue ;;
    call (EvStopInterface i q) ;;
    (* completion block, on if_queue *)
    store (set_if_status (stop_status a)) ;;
    call EvSemaphoreSignal ;;
    call EvSemaphoreWait ;;
    call EvSemaphoreRelease ;;
    status <- load if_status ;;
    if negb (is_success status) then
      call (EvLog "Unable to properly close vmnet device: %s" [ArgErrno]) ;;
      ret (-1)
    else
      q <- load if_queue ;;
      call (EvDispatchRelease q) ;;
      v <- load read_iov_in ;;
      store (set_read_iov_in (mk_iovec (iov_base v) 0)) ;;
      call (EvFree (iov_base v)) ;;
      store (set_read_iov_in (mk_iovec None 0)) ;;
      s <- load read_socket ;;
      call (EvClose (fst s)) ;;
      call (EvClose (snd s)) ;;
      ret 0.

(** ** macos_vmnet_read *)

(** What [vmnet_read] leaves behind, and what [writev] returns if it is
    reached.  The framework updates the descriptor's size, buffer count and
    flags and the in/out packet count; the [iovec] the descriptor points to
    ([read_iov_in]) is not rewritten. *)
Record read_answers : Type := mk_read_answers {
  read_status   : vmnet_return_t;
  read_count    : Z;
  read_pkt_size : Z;
  read_iovcnt   : Z;
  read_flags    : Z;
  writev_result : Z
}.

Definition macos_vmnet_read (a : read_answers) : Run unit :=
  status <- load if_status ;;
  if negb (is_success status) then ret tt
  else
    n <- load max_packet_size ;;
    v <- load read_iov_in ;;
    let packet := mk_vmpktdesc n v 1 0 in
    i <- load vmnet_if ;;
    call (EvVmnetRead i packet 1) ;;
    let packet := mk_vmpktdesc (read_pkt_size a) (vm_pkt_iov packet)
                               (read_iovcnt a) (read_flags a) in
    let count := read_count a in
    store (set_if_status (read_status a)) ;;
    status <- load if_status ;;
    if negb (is_success status) then
      call (EvLog "Unable to read packet: %s"
                  [ArgString (str_vmnet_status status)]) ;;
      ret tt
    else
      if negb (count =? 0) && negb (vm_pkt_iovcnt packet =? 0) then
        let iov_out := mk_iovec (iov_base (vm_pkt_iov packet))
                                (vm_pkt_size packet) in
        s <- load read_socket ;;
        call (EvWritev (snd s) (iov_base iov_out) (iov_len iov_out)
                       (writev_result a)) ;;
        if writev_result a <? 0 then
          call (EvLog "Unable to write to read socket: %s" [ArgErrno]) ;;
          ret tt
        else ret tt
      else ret tt.

(** ** macos_vmnet_write *)

(** What [vmnet_write] returns and the packet count it leaves. *)
Record write_answers : Type := mk_write_answers {
  write_status : vmnet_return_t;
  write_count  : Z
}.

Definition macos_vmnet_write (a : write_answers) (buffer : pointer)
    (buflen : Z) : Run Z :=
  let iov := mk_iovec buffer buflen in
  n <- load max_packet_size ;;
  if buflen >? n then
    call (EvLog "Max packet size (%zd) exceeded: %zd"
                [ArgSize n; ArgSize buflen]) ;;
    ret (-1)
  else
    let packet := mk_vmpktdesc buflen iov 1 0 in
    let pkt_cnt := 1 in
    i <- load vmnet_if ;;
    call (EvVmnetWrite i packet pkt_cnt) ;;
    let pkt_cnt := write_count a in
    (* the local if_status, which hides the static of the same name *)
    let if_status := write_status a in
    if negb (is_success if_status) then
      call (EvLog "Write failed" []) ;;
      ret (-1)
    else
      ret (to_ssize_t (if pkt_cnt =? 0 then 0 else buflen)).

(** The calls by which [macos_vmnet_close] gives back what
    [macos_vmnet_open] acquired. *)
Definition releases_local_resource (e : event) : bool :=
  match e with
  | EvDispatchRelease _ | EvFree _ | EvClose _ => true
  | _ => false
  end.

Definition is_malloc (e : event) : bool :=
  match e with EvMalloc _ _ => true | _ => false end.

(** ** Resource accounting over a sequence of calls *)

Inductive resource : Type :=
| ResFd (fd : Z)
| ResQueue (q : positive)
| ResBlock (p : positive)
| ResSemaphore
| ResDictionary.

Definition resource_eqb (r1 r2 : resource) : bool :=
  match r1, r2 with
  | ResFd a, ResFd b => a =? b
  | ResQueue a, ResQueue b => Pos.eqb a b
  | ResBlock a, ResBlock b => Pos.eqb a b
  | ResSemaphore, ResSemaphore => true
  | ResDictionary, ResDictionary => true
  | _, _ => false
  end.

Definition of_ref (mk : positive -> resource) (r : option positive)
  : list resource :=
  match r with Some p => [mk p] | None => [] end.

Definition acquired_by (e : event) : list resource :=
  match e with
  | EvSocketpair (Some (a, b)) => [ResFd a; ResFd b]
  | EvMalloc _ p => of_ref ResBlock p
  | EvQueueCreate _ q => of_ref ResQueue q
  | EvSemaphoreCreate => [ResSemaphore]
  | EvXpcDictionaryCreate _ => [ResDictionary]
  | _ => []
  end.

Definition released_by (e : event) : list resource :=
  match e with
  | EvClose fd => [ResFd fd]
  | EvFree p => of_ref ResBlock p
  | EvDispatchRelease q => of_ref ResQueue q
  | EvSemaphoreRelease => [ResSemaphore]
  | EvXpcRelease => [ResDictionary]
  | _ => []
  end.

Fixpoint remove_one (r : resource) (held : list resource) : list resource :=
  match held with
  | [] => []
  | x :: rest => if resource_eqb r x then rest else x :: remove_one r rest
  end.

(** The resources held once the calls [t] have been made, starting from
    [held]. *)
Fixpoint held_after (t : list event) (held : list resource) : list resource :=
  match t with
  | [] => held
  | e :: t' =>
      held_after t' (fold_right remove_one (held ++ acquired_by e)
                                (released_by e))
  end.

Definition leaked (t : list event) : list resource := held_after t [].

(** ** Runs of the adapter *)

Inductive operation : Type :=
| OpOpen (a : open_answers)
| OpClose (a : close_answers) (fd : Z)
| OpReadEvent (a : read_answers)
| OpWrite (a : write_answers) (buffer : pointer) (buflen : Z).

(** The statics after one operation. *)
Definition step (op : operation) (g : globals) : globals :=
  match op with
  | OpOpen a => final (macos_vmnet_open a g)
  | OpClose a fd => final (macos_vmnet_close a fd g)
  | OpReadEvent a => final (macos_vmnet_read a g)
  | OpWrite a buffer buflen => final (macos_vmnet_write a buffer buflen g)
  end.

Fixpoint run (ops : list operation) (g : globals) : globals :=
  match ops with
  | [] => g
  | op :: rest => run rest (step op g)
  end.







(** The calls of [macos_vmnet_close] from its validity check up to the
    return of the wait on [if_stopped_sem]. *)
Definition stop_calls (g : globals) : list event :=
  [ EvSetEventCallback (vmnet_if g) None false;
    EvSemaphoreCreate;
    EvStopInterface (vmnet_if g) (if_queue g);
    EvSemaphoreSignal;
    EvSemaphoreWait;
    EvSemaphoreRelease ].

(** ** Sample answers used by the examples *)

Definition open_ok_1500 : open_answers :=
  mk_open_answers (Some (3, 4)) (Some 1%positive) (Some 7%positive)
                  VMNET_SUCCESS (Some 1500) (Some 9%positive).

Definition open_start_fails : open_answers :=
  mk_open_answers (Some (3, 4)) (Some 1%positive) None
                  VMNET_FAILURE None (Some 9%positive).


(** The statics after a successful open that negotiated 1500 bytes. *)
Definition running_1500 : globals :=
  final (macos_vmnet_open open_ok_1500 initial_globals).

Definition closed_1500 : globals :=
  final (macos_vmnet_close (mk_close_answers VMNET_SUCCESS) 3 running_1500).

(** ** Whole runs *)

(** The calls one operation makes. *)
Definition op_calls (op : operation) (g : globals) : list event :=
  match op with
  | OpOpen a => calls (macos_vmnet_open a g)
  | OpClose a fd => calls (macos_vmnet_close a fd g)
  | OpReadEvent a => calls (macos_vmnet_read a g)
  | OpWrite a buffer buflen => calls (macos_vmnet_write a buffer buflen g)
  end.

(** The calls of a sequence of operations, in order. *)
Fixpoint run_calls (ops : list operation) (g : globals) : list event :=
  match ops with
  | [] => []
  | op :: rest => op_calls op g ++ run_calls rest (step op g)
  end.

Definition is_open (op : operation) : bool :=
  match op with OpOpen _ => true | _ => false end.

(** The two data paths: a handler invocation or a write. *)
Definition is_io (op : operation) : bool :=
  match op with
  | OpReadEvent _ | OpWrite _ _ _ => true
  | _ => false
  end.

(** The codes [str_vmnet_status] has a case for. *)
Definition is_listed (s : vmnet_return_t) : bool :=
  match s with VMNET_UNLISTED _ => false | _ => true end.

(** The value [max_packet_size] has once the start completion has run with
    a success status. *)
Definition negotiated_size (a : open_answers) (g : globals) : Z :=
  match start_param a with
  | Some v => to_size_t v
  | None => max_packet_size g
  end.

(** What a successful open holds when it returns. *)
Definition open_holdings (a : open_answers) (fds : Z * Z) : list resource :=
  ResFd (fst fds) :: ResFd (snd fds)
  :: of_ref ResQueue (queue_result a) ++ of_ref ResBlock (malloc_result a).

(** The calls of a successful open. *)
Definition open_success_calls (a : open_answers) (fds : Z * Z) (n : Z)
  : list event :=
  [ EvSocketpair (Some fds);
    EvXpcDictionaryCreate if_desc;
    EvQueueCreate "org.tinc-vpn.vmnet.if_queue" (queue_result a);
    EvSemaphoreCreate;
    EvStartInterface (queue_result a) (start_result a);
    EvSemaphoreSignal;
    EvSemaphoreWait;
    EvSemaphoreRelease;
    EvXpcRelease;
    EvMalloc n (malloc_result a);
    EvSetEventCallback (start_result a) (queue_result a) true ].

(** The calls by which a close with a successful stop gives resources
    back. *)
Definition release_calls (g : globals) : list event :=
  [ EvDispatchRelease (if_queue g);
    EvFree (iov_base (read_iov_in g));
    EvClose (fst (read_socket g));
    EvClose (snd (read_socket g)) ].

(** The length recorded for the read buffer is 0 or [max_packet_size], and
    [max_packet_size] is a [size_t]. *)
Definition buffer_invariant (g : globals) : Prop :=
  0 <= max_packet_size g < 2 ^ 64 /\
  (iov_len (read_iov_in g) = 0 \/
   iov_len (read_iov_in g) = max_packet_size g).

(** A framework that reports the largest packet size a [size_t] holds. *)
Definition open_ok_huge : open_answers :=
  mk_open_answers (Some (3, 4)) (Some 1%positive) (Some 7%positive)
                  VMNET_SUCCESS (Some (2 ^ 64 - 1)) None.

Definition open_ok_second : open_answers :=
  mk_open_answers (Some (5, 6)) (Some 2%positive) (Some 8%positive)
                  VMNET_SUCCESS (Some 9000) (Some 10%positive).

(** * Properties *)

(** ** Basic facts *)

Lemma is_success_true (s : vmnet_return_t) :
  is_success s = true <-> s = VMNET_SUCCESS.
Proof. destruct s; simpl; split; congruence. Qed.

Lemma not_success (s : vmnet_return_t) :
  s <> VMNET_SUCCESS -> is_success s = false.
Proof. destruct s; simpl; congruence. Qed.

Lemma to_ssize_t_small (z : Z) :
  0 <= z <= SSIZE_MAX -> to_ssize_t z = z.
Proof.
  intros H. unfold to_ssize_t, to_size_t, SSIZE_MAX in *.
  rewrite Z.mod_small by lia.
  destruct (z <=? 2 ^ 63 - 1) eqn:E; [reflexivity | apply Z.leb_gt in E; lia].
Qed.

(** [macos_vmnet_write] assigns no static, whatever the framework answers. *)
Lemma write_final (a : write_answers) (buffer : pointer) (buflen : Z)
    (g : globals) :
  final (macos_vmnet_write a buffer buflen g) = g.
Proof.
  unfold macos_vmnet_write, bind, load, call, ret; simpl.
  destruct (buflen >? max_packet_size g); simpl; [reflexivity|].
  destruct (is_success (write_status a)); reflexivity.
Qed.

(** The calls of a write that passes the size check begin with the single
    call of [vmnet_write]. *)
Lemma write_accepted_calls (a : write_answers) (buffer : pointer)
    (buflen : Z) (g : globals) :
  buflen <= max_packet_size g ->
  calls (macos_vmnet_write a buffer buflen g) =
    EvVmnetWrite (vmnet_if g)
      (mk_vmpktdesc buflen (mk_iovec buffer buflen) 1 0) 1
    :: (if is_success (write_status a) then [] else [EvLog "Write failed" []]).
Proof.
  intros H. unfold macos_vmnet_write, bind, load, call, ret; simpl.
  destruct (buflen >? max_packet_size g) eqn:E; [apply Z.gtb_lt in E; lia|].
  simpl. destruct (is_success (write_status a)); reflexivity.
Qed.

Lemma write_oversize (a : write_answers) (buffer : pointer) (buflen : Z)
    (g : globals) :
  buflen > max_packet_size g ->
  macos_vmnet_write a buffer buflen g =
    mk_outcome (-1) g
      [EvLog "Max packet size (%zd) exceeded: %zd"
             [ArgSize (max_packet_size g); ArgSize buflen]].
Proof.
  intros H. unfold macos_vmnet_write, bind, load, call, ret; simpl.
  destruct (buflen >? max_packet_size g) eqn:E; [reflexivity|].
  rewrite Z.gtb_ltb in E. apply Z.ltb_ge in E. lia.
Qed.

(** ** Egress: the size check and the reported byte count *)

(** C4.  A write whose length exceeds [max_packet_size] returns -1 and makes
    no call into the framework; in particular [vmnet_write] is not
    called. *)
Theorem write_oversize_rejected (a : write_answers) (buffer : pointer)
    (buflen : Z) (g : globals) :
  buflen > max_packet_size g ->
  retval (macos_vmnet_write a buffer buflen g) = -1 /\
  existsb is_vmnet_write (calls (macos_vmnet_write a buffer buflen g)) = false /\
  existsb is_framework_call (calls (macos_vmnet_write a buffer buflen g))
    = false.
Proof.
  intros H. rewrite (write_oversize a buffer buflen g H). simpl. auto.
Qed.

Lemma write_oversize_rejected_witness :
  1501 > max_packet_size running_1500 /\
  retval (macos_vmnet_write (mk_write_answers VMNET_SUCCESS 1)
                            (Some 20%positive) 1501 running_1500) = -1.
Proof.
  split; [reflexivity|].
  apply (write_oversize_rejected (mk_write_answers VMNET_SUCCESS 1)
                                 (Some 20%positive) 1501 running_1500).
  reflexivity.
Defined.

(** C5.  A write of a buffer of [buflen] bytes, [buflen] within
    [max_packet_size], returns [buflen] when [vmnet_write] reports success
    and leaves the packet count at 1, returns 0 when it reports success and
    leaves the count at 0, and returns -1 when it reports anything else.
    The returned [buflen] goes through the conversion to [ssize_t]; it is
    the size of an object in memory, hence at most [SSIZE_MAX]. *)
Theorem write_reports_framework_answer (a : write_answers) (buffer : pointer)
    (buflen : Z) (g : globals) :
  0 <= buflen <= max_packet_size g ->
  (write_status a = VMNET_SUCCESS -> write_count a = 1 ->
     buflen <= SSIZE_MAX ->
     retval (macos_vmnet_write a buffer buflen g) = buflen) /\
  (write_status a = VMNET_SUCCESS -> write_count a = 0 ->
     retval (macos_vmnet_write a buffer buflen g) = 0) /\
  (write_status a <> VMNET_SUCCESS ->
     retval (macos_vmnet_write a buffer buflen g) = -1).
Proof.
  intros Hlen.
  assert (E : (buflen >? max_packet_size g) = false).
  { rewrite Z.gtb_ltb. apply Z.ltb_ge. lia. }
  unfold macos_vmnet_write, bind, load, call, ret; simpl; rewrite E; simpl.
  repeat split.
  - intros Hs Hc Hobj. rewrite Hs, Hc. simpl. apply to_ssize_t_small. lia.
  - intros Hs Hc. rewrite Hs, Hc. reflexivity.
  - intros Hs. destruct (is_success (write_status a)) eqn:S; [|reflexivity].
    apply is_success_true in S. contradiction.
Qed.

Lemma write_reports_framework_answer_witness :
  0 <= 64 <= max_packet_size running_1500 /\
  64 <= SSIZE_MAX /\
  retval (macos_vmnet_write (mk_write_answers VMNET_SUCCESS 1)
                            (Some 20%positive) 64 running_1500) = 64.
Proof.
  assert (H1 : 0 <= 64 <= max_packet_size running_1500)
    by (change (0 <= 64 <= 1500); lia).
  assert (H2 : 64 <= SSIZE_MAX) by (unfold SSIZE_MAX; lia).
  split; [exact H1|]. split; [exact H2|].
  exact (proj1 (write_reports_framework_answer
                  (mk_write_answers VMNET_SUCCESS 1) (Some 20%positive) 64
                  running_1500 H1) eq_refl eq_refl H2).
Defined.

(** ** Teardown: the validity check of close *)

Lemma close_guard (fd : Z) (g : globals) :
  vmnet_if g = None \/ fd <> fst (read_socket g) ->
  is_null (vmnet_if g) || negb (fd =? fst (read_socket g)) = true.
Proof.
  intros [H | H].
  - rewrite H. reflexivity.
  - apply Z.eqb_neq in H. rewrite H. apply orb_true_r.
Qed.

Lemma close_invalid (a : close_answers) (fd : Z) (g : globals) :
  vmnet_if g = None \/ fd <> fst (read_socket g) ->
  macos_vmnet_close a fd g =
    mk_outcome (-1) g
      [EvLog "Attempt to close broken vmnet device: %s" [ArgErrno]].
Proof.
  intros H. apply close_guard in H.
  unfold macos_vmnet_close, bind, load, call, ret; simpl.
  rewrite H. reflexivity.
Qed.

(** C6.  A close made while [vmnet_if] is null, or with a descriptor other
    than [read_socket[0]], returns -1, makes no call into the framework (it
    neither clears the event callback nor stops the interface) and leaves
    every static as it was. *)
Theorem close_invalid_refused (a : close_answers) (fd : Z) (g : globals) :
  vmnet_if g = None \/ fd <> fst (read_socket g) ->
  retval (macos_vmnet_close a fd g) = -1 /\
  existsb is_framework_call (calls (macos_vmnet_close a fd g)) = false /\
  final (macos_vmnet_close a fd g) = g.
Proof.
  intros H. rewrite (close_invalid a fd g H). simpl. auto.
Qed.

Lemma close_invalid_refused_witness :
  5 <> fst (read_socket running_1500) /\
  retval (macos_vmnet_close (mk_close_answers VMNET_SUCCESS) 5 running_1500)
    = -1 /\
  existsb is_stop_interface
    (calls (macos_vmnet_close (mk_close_answers VMNET_SUCCESS) 5
                              running_1500)) = false.
Proof.
  assert (H : 5 <> fst (read_socket running_1500))
    by (change (5 <> 3); lia).
  split; [exact H|].
  split.
  - apply (close_invalid_refused (mk_close_answers VMNET_SUCCESS) 5
                                 running_1500 (or_intror H)).
  - reflexivity.
Defined.

(** ** Ingress: the packets-available handler *)

Lemma read_guard_closed (a : read_answers) (g : globals) :
  if_status g <> VMNET_SUCCESS ->
  macos_vmnet_read a g = mk_outcome tt g [].
Proof.
  intros H. unfold macos_vmnet_read, bind, load, ret; simpl.
  destruct (is_success (if_status g)) eqn:E; [|reflexivity].
  apply is_success_true in E. contradiction.
Qed.

(** The handler once its guard is passed: one call of [vmnet_read] on the
    read buffer, then whatever the framework's answer selects. *)
Lemma read_guard_open (a : read_answers) (g : globals) :
  if_status g = VMNET_SUCCESS ->
  macos_vmnet_read a g =
    mk_outcome tt (set_if_status (read_status a) g)
      (EvVmnetRead (vmnet_if g)
         (mk_vmpktdesc (max_packet_size g) (read_iov_in g) 1 0) 1
       :: if negb (is_success (read_status a)) then
            [EvLog "Unable to read packet: %s"
                   [ArgString (str_vmnet_status (read_status a))]]
          else if negb (read_count a =? 0) && negb (read_iovcnt a =? 0) then
            EvWritev (snd (read_socket g)) (iov_base (read_iov_in g))
                     (read_pkt_size a) (writev_result a)
            :: (if writev_result a <? 0 then
                  [EvLog "Unable to write to read socket: %s" [ArgErrno]]
                else [])
          else []).
Proof.
  intros H. unfold macos_vmnet_read, bind, load, store, call, ret; simpl.
  rewrite H; simpl.
  destruct (is_success (read_status a)); simpl; [|reflexivity].
  destruct (negb (read_count a =? 0) && negb (read_iovcnt a =? 0)); simpl;
    [|reflexivity].
  destruct (writev_result a <? 0); reflexivity.
Qed.

(** C7.  The packets-available handler.  (1) When [if_status] is not
    success it returns at once, without calling [vmnet_read].  (2) When
    [vmnet_read] reports a non-success status, that status is stored in
    [if_status] and nothing is written to the socket pair.  (3) When
    [vmnet_read] reports success with one packet of size [S],
    0 < S <= max_packet_size, in a descriptor that still counts a buffer,
    exactly one [writev] is issued, of exactly [S] bytes from the read
    buffer, on [read_socket[1]].  (4) When [vmnet_read] reports success
    with zero packets, nothing is written. *)
Theorem read_handler_cases (a : read_answers) (g : globals) :
  (if_status g <> VMNET_SUCCESS ->
     calls (macos_vmnet_read a g) = [] /\ final (macos_vmnet_read a g) = g) /\
  (if_status g = VMNET_SUCCESS -> read_status a <> VMNET_SUCCESS ->
     if_status (final (macos_vmnet_read a g)) = read_status a /\
     filter is_writev (calls (macos_vmnet_read a g)) = []) /\
  (forall S : Z,
     if_status g = VMNET_SUCCESS -> read_status a = VMNET_SUCCESS ->
     read_count a = 1 -> read_pkt_size a = S -> read_iovcnt a <> 0 ->
     0 < S <= max_packet_size g ->
     filter is_writev (calls (macos_vmnet_read a g)) =
       [EvWritev (snd (read_socket g)) (iov_base (read_iov_in g)) S
                 (writev_result a)]) /\
  (if_status g = VMNET_SUCCESS -> read_status a = VMNET_SUCCESS ->
     read_count a = 0 ->
     filter is_writev (calls (macos_vmnet_read a g)) = []).
Proof.
  split; [|split; [|split]].
  - intros H. rewrite (read_guard_closed a g H). auto.
  - intros Hg Hr. rewrite (read_guard_open a g Hg). simpl.
    destruct (is_success (read_status a)) eqn:E.
    + apply is_success_true in E. contradiction.
    + simpl. auto.
  - intros S Hg Hr Hc Hs Hi _. rewrite (read_guard_open a g Hg). simpl.
    rewrite Hr, Hc, Hs. apply Z.eqb_neq in Hi. rewrite Hi. simpl.
    destruct (writev_result a <? 0); reflexivity.
  - intros Hg Hr Hc. rewrite (read_guard_open a g Hg). simpl.
    rewrite Hr, Hc. reflexivity.
Qed.

Lemma read_handler_cases_witness :
  if_status running_1500 = VMNET_SUCCESS /\
  0 < 3 <= max_packet_size running_1500 /\
  filter is_writev
    (calls (macos_vmnet_read (mk_read_answers VMNET_SUCCESS 1 3 1 0 3)
                             running_1500)) =
    [EvWritev 4 (Some 9%positive) 3 3].
Proof.
  assert (Hg : if_status running_1500 = VMNET_SUCCESS) by reflexivity.
  assert (Hs : 0 < 3 <= max_packet_size running_1500)
    by (change (0 < 3 <= 1500); lia).
  split; [exact Hg|]. split; [exact Hs|].
  assert (Hi : read_iovcnt (mk_read_answers VMNET_SUCCESS 1 3 1 0 3) <> 0)
    by (simpl; lia).
  exact (proj1 (proj2 (proj2
           (read_handler_cases (mk_read_answers VMNET_SUCCESS 1 3 1 0 3)
                               running_1500)))
           3 Hg eq_refl eq_refl eq_refl Hi Hs).
Defined.

(** ** Egress leaves the shared status alone *)

(** C9.  [macos_vmnet_write] keeps the code returned by [vmnet_write] in its
    own local [if_status]; the static of that name, like every other static,
    is what it was before the call.  So a write that the framework fails
    returns -1 and leaves the static [if_status] unchanged, and a handler
    invocation that would have found the static at success before the write
    still finds it so afterwards and calls [vmnet_read]. *)
Theorem write_keeps_if_status (a : write_answers) (buffer : pointer)
    (buflen : Z) (g : globals) :
  write_status a <> VMNET_SUCCESS ->
  retval (macos_vmnet_write a buffer buflen g) = -1 /\
  if_status (final (macos_vmnet_write a buffer buflen g)) = if_status g /\
  final (macos_vmnet_write a buffer buflen g) = g /\
  (if_status g = VMNET_SUCCESS ->
   forall r : read_answers,
     existsb is_vmnet_read
       (calls (macos_vmnet_read r
                 (final (macos_vmnet_write a buffer buflen g)))) = true).
Proof.
  intros Hs. rewrite write_final. split; [|repeat split].
  - apply not_success in Hs.
    unfold macos_vmnet_write, bind, load, call, ret; simpl.
    destruct (buflen >? max_packet_size g); simpl; [reflexivity|].
    rewrite Hs. reflexivity.
  - intros Hg r. rewrite (read_guard_open r g Hg). reflexivity.
Qed.

Lemma write_keeps_if_status_witness :
  if_status
    (final (macos_vmnet_write (mk_write_answers VMNET_BUFFER_EXHAUSTED 1)
                              (Some 20%positive) 64 running_1500))
  = VMNET_SUCCESS.
Proof.
  assert (H : write_status (mk_write_answers VMNET_BUFFER_EXHAUSTED 1)
              <> VMNET_SUCCESS) by (simpl; discriminate).
  exact (proj1 (proj2 (write_keeps_if_status
                  (mk_write_answers VMNET_BUFFER_EXHAUSTED 1)
                  (Some 20%positive) 64 running_1500 H))).
Defined.

(** ** Teardown: the two exits after the stop handshake *)

Lemma close_guard_passed (fd : Z) (g : globals) :
  vmnet_if g <> None -> fd = fst (read_socket g) ->
  is_null (vmnet_if g) || negb (fd =? fst (read_socket g)) = false.
Proof.
  intros Hi Hfd. subst fd. rewrite Z.eqb_refl.
  destruct (vmnet_if g); [reflexivity | contradiction].
Qed.

(** A close that passes its validity check, by the status the stop
    completion delivers. *)
Lemma close_valid (a : close_answers) (fd : Z) (g : globals) :
  vmnet_if g <> None -> fd = fst (read_socket g) ->
  macos_vmnet_close a fd g =
    if is_success (stop_status a) then
      mk_outcome 0
        (mk_globals (stop_status a) (if_queue g) (vmnet_if g)
                    (max_packet_size g) (mk_iovec None 0) (read_socket g))
        (stop_calls g ++
         [ EvDispatchRelease (if_queue g);
           EvFree (iov_base (read_iov_in g));
           EvClose (fst (read_socket g));
           EvClose (snd (read_socket g)) ])
    else
      mk_outcome (-1) (set_if_status (stop_status a) g)
        (stop_calls g ++
         [ EvLog "Unable to properly close vmnet device: %s" [ArgErrno] ]).
Proof.
  intros Hi Hfd.
  unfold macos_vmnet_close, bind, load, store, call, ret; simpl.
  rewrite (close_guard_passed fd g Hi Hfd); simpl.
  destruct (is_success (stop_status a)); reflexivity.
Qed.

(** A close returns 0 only past its validity check and with a successful
    stop. *)
Lemma close_success_inv (a : close_answers) (fd : Z) (g : globals) :
  retval (macos_vmnet_close a fd g) = 0 ->
  vmnet_if g <> None /\ fd = fst (read_socket g) /\
  stop_status a = VMNET_SUCCESS.
Proof.
  intros H.
  destruct (vmnet_if g) as [i|] eqn:Ei.
  - destruct (Z.eq_dec fd (fst (read_socket g))) as [E|E].
    + assert (Hi : vmnet_if g <> None) by congruence.
      rewrite (close_valid a fd g Hi E) in H.
      destruct (is_success (stop_status a)) eqn:S; [|discriminate H].
      apply is_success_true in S. repeat split; auto; discriminate.
    + rewrite (close_invalid a fd g (or_intror E)) in H. discriminate H.
  - rewrite (close_invalid a fd g (or_introl Ei)) in H. discriminate H.
Qed.

(** C1.  What the code does when the stop completion delivers a
    non-success status to a close that passed its validity check: it
    returns -1 right after logging, so that [if_queue] is not released, the
    read buffer is not freed (and [read_iov_in] still describes it) and
    neither end of the socket pair is closed. *)
Theorem close_stop_failure_releases_nothing (a : close_answers) (fd : Z)
    (g : globals) :
  vmnet_if g <> None -> fd = fst (read_socket g) ->
  stop_status a <> VMNET_SUCCESS ->
  retval (macos_vmnet_close a fd g) = -1 /\
  calls (macos_vmnet_close a fd g) =
    stop_calls g ++
    [EvLog "Unable to properly close vmnet device: %s" [ArgErrno]] /\
  existsb releases_local_resource (calls (macos_vmnet_close a fd g)) = false /\
  read_iov_in (final (macos_vmnet_close a fd g)) = read_iov_in g.
Proof.
  intros Hi Hfd Hs. rewrite (close_valid a fd g Hi Hfd).
  destruct (is_success (stop_status a)) eqn:S.
  - apply is_success_true in S. contradiction.
  - simpl. auto.
Qed.

Lemma close_stop_failure_releases_nothing_witness :
  retval (macos_vmnet_close (mk_close_answers VMNET_FAILURE) 3 running_1500)
    = -1 /\
  existsb releases_local_resource
    (calls (macos_vmnet_close (mk_close_answers VMNET_FAILURE) 3
                              running_1500)) = false /\
  leaked (calls (macos_vmnet_open open_ok_1500 initial_globals) ++
          calls (macos_vmnet_close (mk_close_answers VMNET_FAILURE) 3
                                   running_1500)) =
    [ResFd 3; ResFd 4; ResQueue 1; ResBlock 9].
Proof.
  assert (Hi : vmnet_if running_1500 <> None) by (simpl; discriminate).
  assert (Hfd : 3 = fst (read_socket running_1500)) by reflexivity.
  assert (Hs : stop_status (mk_close_answers VMNET_FAILURE) <> VMNET_SUCCESS)
    by (simpl; discriminate).
  destruct (close_stop_failure_releases_nothing
              (mk_close_answers VMNET_FAILURE) 3 running_1500 Hi Hfd Hs)
    as [R [_ [N _]]].
  split; [exact R|]. split; [exact N|]. reflexivity.
Defined.

(** The sibling exit: with a successful stop the same close releases the
    queue, frees the buffer and closes both descriptors. *)
Lemma close_success_releases_all :
  leaked (calls (macos_vmnet_open open_ok_1500 initial_globals) ++
          calls (macos_vmnet_close (mk_close_answers VMNET_SUCCESS) 3
                                   running_1500)) = [].
Proof. reflexivity. Qed.

(** ** Setup: the two failure exits of open *)

(** When [socketpair] fails nothing has been acquired and no static has
    changed. *)
Lemma open_socketpair_failure (a : open_answers) (g : globals) :
  socketpair_result a = None ->
  macos_vmnet_open a g =
    mk_outcome (-1) g
      [EvSocketpair None; EvLog "Unable to create socket: %s" [ArgErrno]].
Proof.
  intros H. unfold macos_vmnet_open, bind, call, ret; simpl.
  rewrite H. reflexivity.
Qed.

(** The statics after an open that fails on the start status. *)
Lemma open_start_failure_final (a : open_answers) (g : globals)
    (fds : Z * Z) :
  socketpair_result a = Some fds -> start_status a <> VMNET_SUCCESS ->
  final (macos_vmnet_open a g) =
    mk_globals (start_status a) (queue_result a) (start_result a)
               (max_packet_size g) (read_iov_in g) fds /\
  retval (macos_vmnet_open a g) = -1.
Proof.
  intros Hs Hf. apply not_success in Hf.
  unfold macos_vmnet_open, start_completion, bind, load, store, call, ret.
  simpl. rewrite Hs. simpl. rewrite Hf.
  destruct (start_param a); simpl; rewrite ?Hf; simpl; auto.
Qed.

(** C2.  What the code does when the start completion delivers a
    non-success status: it returns -1 and has not allocated the read buffer,
    but both descriptors of the socket pair and the dispatch queue created
    during this call are still held on return (the semaphore and the
    description dictionary have been released). *)
Theorem open_start_failure_leaks (a : open_answers) (g : globals)
    (fds : Z * Z) :
  socketpair_result a = Some fds -> start_status a <> VMNET_SUCCESS ->
  retval (macos_vmnet_open a g) = -1 /\
  existsb is_malloc (calls (macos_vmnet_open a g)) = false /\
  read_iov_in (final (macos_vmnet_open a g)) = read_iov_in g /\
  existsb releases_local_resource (calls (macos_vmnet_open a g)) = false /\
  leaked (calls (macos_vmnet_open a g)) =
    ResFd (fst fds) :: ResFd (snd fds) :: of_ref ResQueue (queue_result a).
Proof.
  intros Hs Hf.
  destruct (open_start_failure_final a g fds Hs Hf) as [F R].
  rewrite F, R. apply not_success in Hf.
  unfold macos_vmnet_open, start_completion, bind, load, store, call, ret.
  simpl. rewrite Hs. simpl. rewrite Hf.
  destruct fds as [fd0 fd1].
  destruct (start_param a); simpl; rewrite ?Hf; simpl;
    destruct (queue_result a); simpl; auto.
Qed.

Lemma open_start_failure_leaks_witness :
  retval (macos_vmnet_open open_start_fails initial_globals) = -1 /\
  leaked (calls (macos_vmnet_open open_start_fails initial_globals)) =
    [ResFd 3; ResFd 4; ResQueue 1].
Proof.
  assert (Hs : socketpair_result open_start_fails = Some (3, 4))
    by reflexivity.
  assert (Hf : start_status open_start_fails <> VMNET_SUCCESS)
    by (simpl; discriminate).
  destruct (open_start_failure_leaks open_start_fails initial_globals (3, 4)
                                     Hs Hf) as [R [_ [_ [_ L]]]].
  split; [exact R | exact L].
Defined.

(** ** After a successful close *)

(** The statics after a close that returned 0: only [if_status] and
    [read_iov_in] have been assigned. *)
Lemma close_success_final (a : close_answers) (fd : Z) (g : globals) :
  retval (macos_vmnet_close a fd g) = 0 ->
  final (macos_vmnet_close a fd g) =
    mk_globals VMNET_SUCCESS (if_queue g) (vmnet_if g) (max_packet_size g)
               (mk_iovec None 0) (read_socket g).
Proof.
  intros H. destruct (close_success_inv a fd g H) as [Hi [Hfd Hs]].
  rewrite (close_valid a fd g Hi Hfd), Hs. reflexivity.
Qed.

(** C8.  What the code does to the interface reference on close: a close
    that returns 0 leaves [vmnet_if] holding the non-null reference it held
    before, so that a second close with the same descriptor passes the
    validity check again and calls [vmnet_stop_interface] once more. *)
Theorem close_success_keeps_handle (a : close_answers) (fd : Z)
    (g : globals) :
  retval (macos_vmnet_close a fd g) = 0 ->
  vmnet_if (final (macos_vmnet_close a fd g)) = vmnet_if g /\
  vmnet_if (final (macos_vmnet_close a fd g)) <> None /\
  forall a' : close_answers,
    existsb is_stop_interface
      (calls (macos_vmnet_close a' fd (final (macos_vmnet_close a fd g))))
    = true.
Proof.
  intros H. destruct (close_success_inv a fd g H) as [Hi [Hfd Hs]].
  rewrite (close_success_final a fd g H). simpl.
  repeat split; auto.
  intros a'. rewrite close_valid by (simpl; auto).
  destruct (is_success (stop_status a')); reflexivity.
Qed.

Lemma close_success_keeps_handle_witness :
  retval (macos_vmnet_close (mk_close_answers VMNET_SUCCESS) 3 running_1500)
    = 0 /\
  vmnet_if closed_1500 = Some 7%positive.
Proof.
  assert (H : retval (macos_vmnet_close (mk_close_answers VMNET_SUCCESS) 3
                                        running_1500) = 0) by reflexivity.
  split; [exact H|].
  exact (proj1 (close_success_keeps_handle
                  (mk_close_answers VMNET_SUCCESS) 3 running_1500 H)).
Defined.

(** C3, as stated, fails: after the open that negotiated 1500 bytes and a
    close that returned 0, a write of 64 bytes calls [vmnet_write] and
    returns what the framework's answer selects, here 64. *)
Lemma write_after_close_counterexample :
  retval (macos_vmnet_close (mk_close_answers VMNET_SUCCESS) 3 running_1500)
    = 0 /\
  retval (macos_vmnet_write (mk_write_answers VMNET_SUCCESS 1)
                            (Some 20%positive) 64 closed_1500) = 64 /\
  existsb is_vmnet_write
    (calls (macos_vmnet_write (mk_write_answers VMNET_SUCCESS 1)
                              (Some 20%positive) 64 closed_1500)) = true.
Proof. repeat split. Qed.

(** C3, amended.  After a close that returned 0, [max_packet_size] is what
    it was before the close.  A write longer than that returns -1 and makes
    no call into the framework.  A write within it is not refused: it makes
    exactly one call into the framework, the call of [vmnet_write], and
    returns -1 when that call reports a non-success status. *)
Theorem write_after_close (c : close_answers) (fd : Z) (g : globals)
    (w : write_answers) (buffer : pointer) (buflen : Z) :
  retval (macos_vmnet_close c fd g) = 0 ->
  max_packet_size (final (macos_vmnet_close c fd g)) = max_packet_size g /\
  (buflen > max_packet_size g ->
     retval (macos_vmnet_write w buffer buflen
               (final (macos_vmnet_close c fd g))) = -1 /\
     existsb is_framework_call
       (calls (macos_vmnet_write w buffer buflen
                 (final (macos_vmnet_close c fd g)))) = false) /\
  (buflen <= max_packet_size g ->
     filter is_framework_call
       (calls (macos_vmnet_write w buffer buflen
                 (final (macos_vmnet_close c fd g)))) =
       [EvVmnetWrite (vmnet_if (final (macos_vmnet_close c fd g)))
          (mk_vmpktdesc buflen (mk_iovec buffer buflen) 1 0) 1] /\
     (write_status w <> VMNET_SUCCESS ->
        retval (macos_vmnet_write w buffer buflen
                  (final (macos_vmnet_close c fd g))) = -1)).
Proof.
  intros H. rewrite (close_success_final c fd g H).
  set (g' := mk_globals _ _ _ _ _ _).
  assert (M : max_packet_size g' = max_packet_size g) by reflexivity.
  split; [exact M|]. rewrite <- M. split.
  - intros Hb. rewrite (write_oversize w buffer buflen g' Hb). simpl. auto.
  - intros Hb. rewrite (write_accepted_calls w buffer buflen g' Hb). split.
    + simpl. destruct (is_success (write_status w)); reflexivity.
    + intros Hs. apply not_success in Hs.
      unfold macos_vmnet_write, bind, load, call, ret; simpl.
      destruct (buflen >? max_packet_size g); simpl; [reflexivity|].
      rewrite Hs. reflexivity.
Qed.

Lemma write_after_close_witness :
  max_packet_size closed_1500 = 1500 /\
  filter is_framework_call
    (calls (macos_vmnet_write (mk_write_answers VMNET_SUCCESS 1)
                              (Some 20%positive) 64 closed_1500)) =
    [EvVmnetWrite (Some 7%positive)
       (mk_vmpktdesc 64 (mk_iovec (Some 20%positive) 64) 1 0) 1].
Proof.
  assert (H : retval (macos_vmnet_close (mk_close_answers VMNET_SUCCESS) 3
                                        running_1500) = 0) by reflexivity.
  assert (L : 64 <= max_packet_size running_1500)
    by (change (64 <= 1500); lia).
  destruct (write_after_close (mk_close_answers VMNET_SUCCESS) 3 running_1500
              (mk_write_answers VMNET_SUCCESS 1) (Some 20%positive) 64 H)
    as [M [_ A]].
  split; [exact M|]. exact (proj1 (A L)).
Defined.

(** ** Before the first successful open *)












(** ** The adapter on a scripted framework *)

(** Open, then close, both successful: the framework sees one start, the
    registration of the handler, its removal, and one stop, in that
    order. *)
Example open_close_framework_calls :
  filter is_framework_call
    (calls (macos_vmnet_open open_ok_1500 initial_globals) ++
     calls (macos_vmnet_close (mk_close_answers VMNET_SUCCESS) 3
                              running_1500)) =
    [ EvStartInterface (Some 1%positive) (Some 7%positive);
      EvSetEventCallback (Some 7%positive) (Some 1%positive) true;
      EvSetEventCallback (Some 7%positive) None false;
      EvStopInterface (Some 7%positive) (Some 1%positive) ].
Proof. reflexivity. Qed.

(** A start that fails with the general failure code is logged under its
    translated name. *)
Example open_failure_logged :
  In (EvLog "Unable to create vmnet device: %s"
            [ArgString "general failure (possibly not enough privileges)"])
     (calls (macos_vmnet_open open_start_fails initial_globals)).
Proof. simpl. tauto. Qed.

(** A frame of exactly [max_packet_size] bytes is accepted, one more byte is
    not. *)
Example write_length_boundary :
  retval (macos_vmnet_write (mk_write_answers VMNET_SUCCESS 1)
                            (Some 20%positive) 1500 running_1500) = 1500 /\
  retval (macos_vmnet_write (mk_write_answers VMNET_SUCCESS 1)
                            (Some 20%positive) 1501 running_1500) = -1.
Proof. split; reflexivity. Qed.

(** The conversion of the returned length wraps above [SSIZE_MAX]. *)
Example to_ssize_t_wraps :
  to_ssize_t SSIZE_MAX = SSIZE_MAX /\ to_ssize_t (SSIZE_MAX + 1) = - 2 ^ 63.
Proof. split; reflexivity. Qed.

(** * Further properties of vmnet.c *)

(** ** str_vmnet_status *)

(** X1.  [str_vmnet_status] gives different texts to different listed codes,
    and the text "unknown vmnet error" to exactly the codes it does not
    list. *)
Theorem str_vmnet_status_distinguishes (s1 s2 : vmnet_return_t) :
  (is_listed s1 = true -> is_listed s2 = true ->
   str_vmnet_status s1 = str_vmnet_status s2 -> s1 = s2) /\
  (str_vmnet_status s1 = "unknown vmnet error"%string <->
   is_listed s1 = false).
Proof.
  split.
  - destruct s1, s2; simpl; intros H1 H2 E;
      try reflexivity; try discriminate H1; try discriminate H2;
      discriminate E.
  - destruct s1; simpl; split; intros H;
      try reflexivity; discriminate H.
Qed.

Lemma str_vmnet_status_distinguishes_witness :
  str_vmnet_status VMNET_PACKET_TOO_BIG = "packet size is larger than MTU"%string
  /\ VMNET_PACKET_TOO_BIG = VMNET_PACKET_TOO_BIG.
Proof.
  split; [reflexivity|].
  exact (proj1 (str_vmnet_status_distinguishes VMNET_PACKET_TOO_BIG
                                               VMNET_PACKET_TOO_BIG)
           eq_refl eq_refl eq_refl).
Defined.

(** ** Setup: the successful exit of open *)

(** An open whose socket pair and start both succeed. *)
Lemma open_success (a : open_answers) (g : globals) (fds : Z * Z) :
  socketpair_result a = Some fds -> start_status a = VMNET_SUCCESS ->
  macos_vmnet_open a g =
    mk_outcome (fst fds)
      (mk_globals VMNET_SUCCESS (queue_result a) (start_result a)
                  (negotiated_size a g)
                  (mk_iovec (malloc_result a) (negotiated_size a g)) fds)
      (open_success_calls a fds (negotiated_size a g)).
Proof.
  intros Hs Hf.
  unfold macos_vmnet_open, start_completion, negotiated_size,
    open_success_calls, bind, load, store, call, ret.
  simpl. rewrite Hs. simpl. rewrite Hf.
  destruct (start_param a); reflexivity.
Qed.

(** X2.  An open whose socket pair and start both succeed returns
    [read_socket[0]], leaves [if_status] at success and records
    [max_packet_size] as the length of the read buffer.  The result of
    [malloc] is stored without a test: also when it is null the handler is
    registered, as the last call, and the descriptor is returned. *)
Theorem open_success_state (a : open_answers) (g : globals) (fds : Z * Z) :
  socketpair_result a = Some fds -> start_status a = VMNET_SUCCESS ->
  retval (macos_vmnet_open a g) = fst fds /\
  read_socket (final (macos_vmnet_open a g)) = fds /\
  if_status (final (macos_vmnet_open a g)) = VMNET_SUCCESS /\
  vmnet_if (final (macos_vmnet_open a g)) = start_result a /\
  read_iov_in (final (macos_vmnet_open a g)) =
    mk_iovec (malloc_result a)
             (max_packet_size (final (macos_vmnet_open a g))) /\
  In (EvMalloc (max_packet_size (final (macos_vmnet_open a g)))
               (malloc_result a))
     (calls (macos_vmnet_open a g)) /\
  last (calls (macos_vmnet_open a g)) EvSemaphoreWait =
    EvSetEventCallback (start_result a) (queue_result a) true.
Proof.
  intros Hs Hf. rewrite (open_success a g fds Hs Hf). simpl.
  repeat split; auto. tauto.
Qed.

Lemma open_success_state_witness :
  retval (macos_vmnet_open open_ok_huge initial_globals) = 3 /\
  read_iov_in (final (macos_vmnet_open open_ok_huge initial_globals)) =
    mk_iovec None (2 ^ 64 - 1).
Proof.
  destruct (open_success_state open_ok_huge initial_globals (3, 4)
                               eq_refl eq_refl) as [R [_ [_ [_ [B _]]]]].
  split; [exact R | exact B].
Defined.

(** X3.  The packet size a successful open records is the value the
    framework's parameter dictionary holds, as a [size_t]; when the
    completion block gets a null dictionary together with a success status,
    [max_packet_size] keeps the value it had, which is 0 in a fresh
    process. *)
Theorem open_negotiates_size (a : open_answers) (g : globals)
    (fds : Z * Z) :
  socketpair_result a = Some fds -> start_status a = VMNET_SUCCESS ->
  (forall v : Z, start_param a = Some v ->
     max_packet_size (final (macos_vmnet_open a g)) = v mod 2 ^ 64 /\
     (0 <= v < 2 ^ 64 ->
      max_packet_size (final (macos_vmnet_open a g)) = v)) /\
  (start_param a = None ->
     max_packet_size (final (macos_vmnet_open a g)) = max_packet_size g).
Proof.
  intros Hs Hf. rewrite (open_success a g fds Hs Hf). simpl.
  unfold negotiated_size. split.
  - intros v Hv. rewrite Hv. unfold to_size_t. split; [reflexivity|].
    intros Hr. apply Z.mod_small. exact Hr.
  - intros Hn. rewrite Hn. reflexivity.
Qed.

Lemma open_negotiates_size_witness :
  max_packet_size running_1500 = 1500.
Proof.
  assert (R : 0 <= 1500 < 2 ^ 64) by lia.
  exact (proj2 (proj1 (open_negotiates_size open_ok_1500 initial_globals
                         (3, 4) eq_refl eq_refl) 1500 eq_refl) R).
Defined.

(** X4.  When [socketpair] fails, open returns -1 having changed no static,
    made no call into the framework and acquired nothing. *)
Theorem open_socketpair_failure_clean (a : open_answers) (g : globals) :
  socketpair_result a = None ->
  retval (macos_vmnet_open a g) = -1 /\
  final (macos_vmnet_open a g) = g /\
  existsb is_framework_call (calls (macos_vmnet_open a g)) = false /\
  leaked (calls (macos_vmnet_open a g)) = [].
Proof.
  intros H. rewrite (open_socketpair_failure a g H). simpl. auto.
Qed.

Lemma open_socketpair_failure_clean_witness :
  final (macos_vmnet_open
           (mk_open_answers None None None VMNET_SUCCESS None None)
           running_1500) = running_1500.
Proof.
  exact (proj1 (proj2 (open_socketpair_failure_clean
           (mk_open_answers None None None VMNET_SUCCESS None None)
           running_1500 eq_refl))).
Defined.

(** ** Open and close composed *)

Ltac eval_holdings :=
  repeat (progress (simpl; rewrite ?Z.eqb_refl, ?Pos.eqb_refl)).

(** X5.  Open followed by close, both successful: the descriptor open
    returned is the one close accepts, and when close returns 0 everything
    acquired since the beginning of the open has been given back. *)
Theorem open_close_releases_everything (a : open_answers)
    (c : close_answers) (g : globals) (fds : Z * Z) :
  socketpair_result a = Some fds -> start_status a = VMNET_SUCCESS ->
  start_result a <> None -> stop_status c = VMNET_SUCCESS ->
  retval (macos_vmnet_close c (retval (macos_vmnet_open a g))
                            (final (macos_vmnet_open a g))) = 0 /\
  leaked (calls (macos_vmnet_open a g) ++
          calls (macos_vmnet_close c (retval (macos_vmnet_open a g))
                                   (final (macos_vmnet_open a g)))) = [].
Proof.
  intros Hs Hf Hi Hc. rewrite (open_success a g fds Hs Hf). simpl.
  rewrite close_valid by (simpl; auto). rewrite Hc. simpl.
  split; [reflexivity|].
  unfold leaked, open_success_calls, stop_calls. destruct fds as [fd0 fd1].
  destruct (queue_result a), (malloc_result a); eval_holdings; reflexivity.
Qed.

Lemma open_close_releases_everything_witness :
  leaked (calls (macos_vmnet_open open_ok_second closed_1500) ++
          calls (macos_vmnet_close (mk_close_answers VMNET_SUCCESS)
                   (retval (macos_vmnet_open open_ok_second closed_1500))
                   (final (macos_vmnet_open open_ok_second closed_1500))))
  = [].
Proof.
  assert (Hi : start_result open_ok_second <> None) by (simpl; discriminate).
  exact (proj2 (open_close_releases_everything open_ok_second
                  (mk_close_answers VMNET_SUCCESS) closed_1500 (5, 6)
                  eq_refl eq_refl Hi eq_refl)).
Defined.

(** X6.  A successful open whose completion block gets a parameter
    dictionary assigns every static: its result, the statics it leaves and
    the calls it makes are the same from any two states, so an open after a
    close behaves as the first open of the process does. *)
Theorem open_overwrites_every_static (a : open_answers) (g g' : globals)
    (fds : Z * Z) :
  socketpair_result a = Some fds -> start_status a = VMNET_SUCCESS ->
  start_param a <> None ->
  macos_vmnet_open a g = macos_vmnet_open a g'.
Proof.
  intros Hs Hf Hp.
  rewrite (open_success a g fds Hs Hf), (open_success a g' fds Hs Hf).
  unfold negotiated_size.
  destruct (start_param a); [reflexivity | contradiction].
Qed.

Lemma open_overwrites_every_static_witness :
  macos_vmnet_open open_ok_second closed_1500 =
  macos_vmnet_open open_ok_second initial_globals.
Proof.
  assert (Hp : start_param open_ok_second <> None) by (simpl; discriminate).
  exact (open_overwrites_every_static open_ok_second closed_1500
           initial_globals (5, 6) eq_refl eq_refl Hp).
Defined.

(** X7.  Open does not look at the state it starts from: a second
    successful open without a close in between is not refused, and the
    socket pair, queue and buffer of the first one are still held, with no
    static referring to them. *)
Theorem second_open_leaks_first (a1 a2 : open_answers) (g : globals)
    (fds1 fds2 : Z * Z) :
  socketpair_result a1 = Some fds1 -> start_status a1 = VMNET_SUCCESS ->
  socketpair_result a2 = Some fds2 -> start_status a2 = VMNET_SUCCESS ->
  retval (macos_vmnet_open a2 (final (macos_vmnet_open a1 g))) = fst fds2 /\
  read_socket (final (macos_vmnet_open a2 (final (macos_vmnet_open a1 g))))
    = fds2 /\
  leaked (calls (macos_vmnet_open a1 g) ++
          calls (macos_vmnet_open a2 (final (macos_vmnet_open a1 g)))) =
    open_holdings a1 fds1 ++ open_holdings a2 fds2.
Proof.
  intros Hs1 Hf1 Hs2 Hf2.
  rewrite (open_success a1 g fds1 Hs1 Hf1). simpl.
  rewrite (open_success a2 _ fds2 Hs2 Hf2). simpl.
  repeat split.
  unfold leaked, open_success_calls, open_holdings.
  destruct fds1 as [a b], fds2 as [c d].
  destruct (queue_result a1), (malloc_result a1),
           (queue_result a2), (malloc_result a2); reflexivity.
Qed.

Lemma second_open_leaks_first_witness :
  leaked (calls (macos_vmnet_open open_ok_1500 initial_globals) ++
          calls (macos_vmnet_open open_ok_second running_1500)) =
    [ResFd 3; ResFd 4; ResQueue 1; ResBlock 9;
     ResFd 5; ResFd 6; ResQueue 2; ResBlock 10].
Proof.
  exact (proj2 (proj2 (second_open_leaks_first open_ok_1500 open_ok_second
                         initial_globals (3, 4) (5, 6)
                         eq_refl eq_refl eq_refl eq_refl))).
Defined.

(** ** Close repeated *)

(** X8.  A close that failed on the stop status can be repeated: the same
    descriptor passes the validity check again, and when the second stop
    succeeds the close returns 0 after releasing exactly what the first one
    left held. *)
Theorem close_retry_after_stop_failure (c1 c2 : close_answers) (fd : Z)
    (g : globals) :
  vmnet_if g <> None -> fd = fst (read_socket g) ->
  stop_status c1 <> VMNET_SUCCESS -> stop_status c2 = VMNET_SUCCESS ->
  retval (macos_vmnet_close c2 fd (final (macos_vmnet_close c1 fd g))) = 0 /\
  calls (macos_vmnet_close c2 fd (final (macos_vmnet_close c1 fd g))) =
    stop_calls g ++ release_calls g.
Proof.
  intros Hi Hfd H1 H2. apply not_success in H1.
  rewrite (close_valid c1 fd g Hi Hfd), H1. simpl.
  rewrite close_valid by (simpl; auto). rewrite H2. simpl. auto.
Qed.

Lemma close_retry_after_stop_failure_witness :
  leaked (calls (macos_vmnet_open open_ok_1500 initial_globals) ++
          calls (macos_vmnet_close (mk_close_answers VMNET_FAILURE) 3
                                   running_1500) ++
          calls (macos_vmnet_close (mk_close_answers VMNET_SUCCESS) 3
                   (final (macos_vmnet_close (mk_close_answers VMNET_FAILURE)
                                             3 running_1500)))) = [].
Proof.
  assert (Hi : vmnet_if running_1500 <> None) by (simpl; discriminate).
  assert (H1 : stop_status (mk_close_answers VMNET_FAILURE) <> VMNET_SUCCESS)
    by (simpl; discriminate).
  destruct (close_retry_after_stop_failure
              (mk_close_answers VMNET_FAILURE)
              (mk_close_answers VMNET_SUCCESS) 3 running_1500
              Hi eq_refl H1 eq_refl) as [_ C].
  rewrite C. reflexivity.
Defined.

(** X9.  A close repeated after one that returned 0 is not refused: it
    removes the handler and stops the interface again.  When this second
    stop reports success it returns 0 after freeing the null pointer (since
    [read_iov_in.iov_base] was reset) and, since [if_queue] and
    [read_socket] were not reset, releasing the same queue and closing the
    same two descriptors a second time.  When the second stop reports a
    failure it logs and returns -1 without any of these releases. *)
Theorem second_close_releases_again (c1 c2 : close_answers) (fd : Z)
    (g : globals) :
  retval (macos_vmnet_close c1 fd g) = 0 ->
  retval (macos_vmnet_close c2 fd (final (macos_vmnet_close c1 fd g))) =
    (if is_success (stop_status c2) then 0 else -1) /\
  calls (macos_vmnet_close c2 fd (final (macos_vmnet_close c1 fd g))) =
    stop_calls g ++
    (if is_success (stop_status c2) then
       [ EvDispatchRelease (if_queue g);
         EvFree None;
         EvClose (fst (read_socket g));
         EvClose (snd (read_socket g)) ]
     else
       [ EvLog "Unable to properly close vmnet device: %s" [ArgErrno] ]).
Proof.
  intros H. destruct (close_success_inv c1 fd g H) as [Hi [Hfd _]].
  rewrite (close_success_final c1 fd g H).
  rewrite close_valid by (simpl; auto).
  destruct (is_success (stop_status c2)); simpl; auto.
Qed.

Lemma second_close_releases_again_witness :
  filter releases_local_resource
    (calls (macos_vmnet_close (mk_close_answers VMNET_SUCCESS) 3
                              closed_1500)) =
    [EvDispatchRelease (Some 1%positive); EvFree None; EvClose 3; EvClose 4]
  /\
  filter releases_local_resource
    (calls (macos_vmnet_close (mk_close_answers VMNET_FAILURE) 3
                              closed_1500)) = [].
Proof.
  assert (H : retval (macos_vmnet_close (mk_close_answers VMNET_SUCCESS) 3
                                        running_1500) = 0) by reflexivity.
  destruct (second_close_releases_again (mk_close_answers VMNET_SUCCESS)
              (mk_close_answers VMNET_SUCCESS) 3 running_1500 H)
    as [_ C1].
  destruct (second_close_releases_again (mk_close_answers VMNET_SUCCESS)
              (mk_close_answers VMNET_FAILURE) 3 running_1500 H)
    as [_ C2].
  change closed_1500
    with (final (macos_vmnet_close (mk_close_answers VMNET_SUCCESS) 3
                                   running_1500)).
  rewrite C1, C2. split; reflexivity.
Defined.

(** ** Ingress: one frame per event *)

(** X10.  One invocation of the handler calls [vmnet_read] at most once and
    [writev] at most once.  It calls [writev] exactly when it found
    [if_status] at success, [vmnet_read] reported success, and both the
    packet count and the descriptor's buffer count came back non-zero; the
    length it passes is the packet size the framework reported, which is not
    compared with [max_packet_size] or with the length of the buffer. *)
Theorem read_handler_single_frame (a : read_answers) (g : globals) :
  (List.length (filter is_vmnet_read (calls (macos_vmnet_read a g)))
     <= 1)%nat /\
  (List.length (filter is_writev (calls (macos_vmnet_read a g)))
     <= 1)%nat /\
  existsb is_writev (calls (macos_vmnet_read a g)) =
    is_success (if_status g) && is_success (read_status a) &&
    negb (read_count a =? 0) && negb (read_iovcnt a =? 0) /\
  (forall (fd : Z) (base : pointer) (len res : Z),
     In (EvWritev fd base len res) (calls (macos_vmnet_read a g)) ->
     fd = snd (read_socket g) /\ base = iov_base (read_iov_in g) /\
     len = read_pkt_size a).
Proof.
  assert (L0 : (0 <= 1)%nat) by lia. assert (L1 : (1 <= 1)%nat) by lia.
  destruct (is_success (if_status g)) eqn:E.
  - apply is_success_true in E. rewrite (read_guard_open a g E). simpl.
    destruct (is_success (read_status a)); simpl;
      [ destruct (negb (read_count a =? 0) && negb (read_iovcnt a =? 0));
        simpl; [destruct (writev_result a <? 0); simpl|] |];
      (split; [assumption | split; [assumption | split; [reflexivity|]]]);
      intros fd base len res H;
      repeat (destruct H as [H|H];
              [try discriminate H; inversion H; auto|]);
      contradiction.
  - assert (H : if_status g <> VMNET_SUCCESS)
      by (intros C; rewrite C in E; discriminate E).
    rewrite (read_guard_closed a g H). simpl.
    split; [assumption | split; [assumption | split; [reflexivity|]]].
    intros fd base len res F. contradiction.
Qed.

(** X11.  A frame whose hand-over to the socket pair fails is dropped
    without consequence for later frames: when [vmnet_read] reports
    success, the handler leaves every static as it found it, whether
    [writev] succeeds or not; a negative result of [writev] is logged. *)
Theorem read_pipe_failure_is_not_latched (a : read_answers) (g : globals) :
  if_status g = VMNET_SUCCESS -> read_status a = VMNET_SUCCESS ->
  final (macos_vmnet_read a g) = g /\
  (read_count a <> 0 -> read_iovcnt a <> 0 -> writev_result a < 0 ->
   last (calls (macos_vmnet_read a g)) EvSemaphoreWait =
     EvLog "Unable to write to read socket: %s" [ArgErrno]).
Proof.
  intros Hg Hr. rewrite (read_guard_open a g Hg). simpl. split.
  - rewrite Hr. unfold set_if_status. rewrite <- Hg.
    destruct g; reflexivity.
  - intros Hc Hi Hw. rewrite Hr. simpl.
    apply Z.eqb_neq in Hc, Hi. rewrite Hc, Hi. simpl.
    apply Z.ltb_lt in Hw. rewrite Hw. reflexivity.
Qed.

Lemma read_pipe_failure_is_not_latched_witness :
  final (macos_vmnet_read (mk_read_answers VMNET_SUCCESS 1 60 1 0 (-1))
                          running_1500) = running_1500.
Proof.
  exact (proj1 (read_pipe_failure_is_not_latched
                  (mk_read_answers VMNET_SUCCESS 1 60 1 0 (-1))
                  running_1500 eq_refl eq_refl)).
Defined.

Lemma io_step_closed (op : operation) (g : globals) :
  if_status g <> VMNET_SUCCESS -> is_io op = true ->
  step op g = g /\
  existsb is_vmnet_read (op_calls op g) = false /\
  existsb is_writev (op_calls op g) = false.
Proof.
  intros Hg Hio.
  destruct op as [a | a fd | a | a buffer buflen]; simpl in *;
    try discriminate Hio.
  - rewrite (read_guard_closed a g Hg). simpl. auto.
  - rewrite write_final. split; [reflexivity|].
    unfold macos_vmnet_write, bind, load, call, ret; simpl.
    destruct (buflen >? max_packet_size g); simpl; [auto|].
    destruct (is_success (write_status a)); simpl; auto.
Qed.

(** X12.  A read error is latched.  From a state whose [if_status] is not
    success (after [vmnet_read] or a stop reported a failure, or before any
    open) no sequence of handler invocations and writes changes any static,
    calls [vmnet_read] or writes to the socket pair: only an open or a
    close can set [if_status] back. *)
Theorem read_failure_is_latched (ops : list operation) (g : globals) :
  if_status g <> VMNET_SUCCESS -> forallb is_io ops = true ->
  run ops g = g /\
  existsb is_vmnet_read (run_calls ops g) = false /\
  existsb is_writev (run_calls ops g) = false.
Proof.
  intros Hg. induction ops as [|op rest IH]; simpl; intros H; [auto|].
  apply andb_prop in H. destruct H as [Hop Hrest].
  destruct (io_step_closed op g Hg Hop) as [S [R W]].
  rewrite S. destruct (IH Hrest) as [S' [R' W']].
  rewrite !existsb_app, R, W, R', W'. auto.
Qed.

Lemma read_failure_is_latched_witness :
  existsb is_vmnet_read
    (run_calls
       [OpReadEvent (mk_read_answers VMNET_SUCCESS 1 60 1 0 60);
        OpWrite (mk_write_answers VMNET_SUCCESS 1) None 64;
        OpReadEvent (mk_read_answers VMNET_SUCCESS 1 60 1 0 60)]
       (final (macos_vmnet_read
                 (mk_read_answers VMNET_BUFFER_EXHAUSTED 0 0 1 0 0)
                 running_1500))) = false.
Proof.
  assert (Hg : if_status
                 (final (macos_vmnet_read
                           (mk_read_answers VMNET_BUFFER_EXHAUSTED 0 0 1 0 0)
                           running_1500)) <> VMNET_SUCCESS)
    by (simpl; discriminate).
  exact (proj1 (proj2 (read_failure_is_latched
           [OpReadEvent (mk_read_answers VMNET_SUCCESS 1 60 1 0 60);
            OpWrite (mk_write_answers VMNET_SUCCESS 1) None 64;
            OpReadEvent (mk_read_answers VMNET_SUCCESS 1 60 1 0 60)]
           _ Hg eq_refl))).
Defined.

(** X13.  After a close that returned 0 the handler's status test does not
    hold it back: [if_status] is success, so an invocation calls
    [vmnet_read] on the reference kept in [vmnet_if], with a descriptor of
    size [max_packet_size] over the null buffer of length 0. *)
Theorem read_after_close_reaches_framework (c : close_answers) (fd : Z)
    (g : globals) (a : read_answers) :
  retval (macos_vmnet_close c fd g) = 0 ->
  hd_error (calls (macos_vmnet_read a (final (macos_vmnet_close c fd g)))) =
    Some (EvVmnetRead (vmnet_if g)
            (mk_vmpktdesc (max_packet_size g) (mk_iovec None 0) 1 0) 1).
Proof.
  intros H. rewrite (close_success_final c fd g H).
  rewrite read_guard_open by reflexivity. reflexivity.
Qed.

Lemma read_after_close_reaches_framework_witness :
  hd_error (calls (macos_vmnet_read
                     (mk_read_answers VMNET_INVALID_ARGUMENT 0 0 1 0 0)
                     closed_1500)) =
    Some (EvVmnetRead (Some 7%positive)
            (mk_vmpktdesc 1500 (mk_iovec None 0) 1 0) 1).
Proof.
  exact (read_after_close_reaches_framework
           (mk_close_answers VMNET_SUCCESS) 3 running_1500
           (mk_read_answers VMNET_INVALID_ARGUMENT 0 0 1 0 0) eq_refl).
Defined.

(** ** What the framework is asked to do *)

(** X14.  The calls open makes into the framework: none when [socketpair]
    fails; otherwise one [vmnet_start_interface] on the queue just created,
    followed by the registration of the handler exactly when the start
    status is success. *)
Theorem open_framework_calls (a : open_answers) (g : globals) :
  filter is_framework_call (calls (macos_vmnet_open a g)) =
    match socketpair_result a with
    | None => []
    | Some _ =>
        EvStartInterface (queue_result a) (start_result a)
        :: (if is_success (start_status a)
            then [EvSetEventCallback (start_result a) (queue_result a) true]
            else [])
    end.
Proof.
  destruct (socketpair_result a) as [fds|] eqn:Hs.
  - destruct (is_success (start_status a)) eqn:Hf.
    + apply is_success_true in Hf.
      rewrite (open_success a g fds Hs Hf). reflexivity.
    + unfold macos_vmnet_open, start_completion, bind, load, store, call,
        ret.
      simpl. rewrite Hs. simpl. rewrite Hf.
      destruct (start_param a); simpl; rewrite ?Hf; reflexivity.
  - rewrite (open_socketpair_failure a g Hs). reflexivity.
Qed.

(** X15.  A close that passes its validity check removes the handler and
    then stops the interface, once each and in this order, whatever status
    the stop delivers. *)
Theorem close_framework_calls (a : close_answers) (fd : Z) (g : globals) :
  vmnet_if g <> None -> fd = fst (read_socket g) ->
  filter is_framework_call (calls (macos_vmnet_close a fd g)) =
    [ EvSetEventCallback (vmnet_if g) None false;
      EvStopInterface (vmnet_if g) (if_queue g) ].
Proof.
  intros Hi Hfd. rewrite (close_valid a fd g Hi Hfd).
  destruct (is_success (stop_status a)); reflexivity.
Qed.

Lemma close_framework_calls_witness :
  filter is_framework_call
    (calls (macos_vmnet_close (mk_close_answers VMNET_MEM_FAILURE) 3
                              running_1500)) =
    [ EvSetEventCallback (Some 7%positive) None false;
      EvStopInterface (Some 7%positive) (Some 1%positive) ].
Proof.
  assert (Hi : vmnet_if running_1500 <> None) by (simpl; discriminate).
  exact (close_framework_calls (mk_close_answers VMNET_MEM_FAILURE) 3
                               running_1500 Hi eq_refl).
Defined.

(** ** What only open assigns *)

Lemma close_final_cases (a : close_answers) (fd : Z) (g : globals) :
  final (macos_vmnet_close a fd g) = g \/
  final (macos_vmnet_close a fd g) = set_if_status (stop_status a) g \/
  final (macos_vmnet_close a fd g) =
    mk_globals (stop_status a) (if_queue g) (vmnet_if g)
               (max_packet_size g) (mk_iovec None 0) (read_socket g).
Proof.
  unfold macos_vmnet_close, bind, load, store, call, ret; simpl.
  destruct (is_null (vmnet_if g) || negb (fd =? fst (read_socket g)));
    simpl; [auto|].
  destruct (is_success (stop_status a)); simpl; auto.
Qed.

Lemma read_final_cases (a : read_answers) (g : globals) :
  final (macos_vmnet_read a g) = g \/
  final (macos_vmnet_read a g) = set_if_status (read_status a) g.
Proof.
  destruct (is_success (if_status g)) eqn:E.
  - apply is_success_true in E. rewrite (read_guard_open a g E). auto.
  - assert (H : if_status g <> VMNET_SUCCESS)
      by (intros C; rewrite C in E; discriminate E).
    rewrite (read_guard_closed a g H). auto.
Qed.

Lemma step_keeps_parameters (op : operation) (g : globals) :
  is_open op = false ->
  vmnet_if (step op g) = vmnet_if g /\
  if_queue (step op g) = if_queue g /\
  max_packet_size (step op g) = max_packet_size g /\
  read_socket (step op g) = read_socket g.
Proof.
  destruct op as [a | a fd | a | a buffer buflen]; simpl; intros H.
  - discriminate H.
  - destruct (close_final_cases a fd g) as [E|[E|E]]; rewrite E; simpl; auto.
  - destruct (read_final_cases a g) as [E|E]; rewrite E; simpl; auto.
  - rewrite write_final. auto.
Qed.

(** X16.  The interface reference, the queue, the negotiated packet size and
    the socket pair are assigned by open alone: no sequence of closes,
    handler invocations and writes changes any of them.  In particular
    [max_packet_size] is fixed from one open to the next. *)
Theorem parameters_fixed_between_opens (ops : list operation)
    (g : globals) :
  forallb (fun op => negb (is_open op)) ops = true ->
  vmnet_if (run ops g) = vmnet_if g /\
  if_queue (run ops g) = if_queue g /\
  max_packet_size (run ops g) = max_packet_size g /\
  read_socket (run ops g) = read_socket g.
Proof.
  revert g. induction ops as [|op rest IH]; simpl; intros g H; [auto|].
  apply andb_prop in H. destruct H as [Hop Hrest].
  destruct (IH (step op g) Hrest) as [A [B [C D]]].
  rewrite A, B, C, D. apply step_keeps_parameters.
  destruct (is_open op); [discriminate Hop | reflexivity].
Qed.

Lemma parameters_fixed_between_opens_witness :
  max_packet_size
    (run [OpReadEvent (mk_read_answers VMNET_FAILURE 0 0 1 0 0);
          OpWrite (mk_write_answers VMNET_FAILURE 1) None 10;
          OpClose (mk_close_answers VMNET_SUCCESS) 3;
          OpClose (mk_close_answers VMNET_FAILURE) 3] running_1500) = 1500.
Proof.
  exact (proj1 (proj2 (proj2 (parameters_fixed_between_opens
           [OpReadEvent (mk_read_answers VMNET_FAILURE 0 0 1 0 0);
            OpWrite (mk_write_answers VMNET_FAILURE 1) None 10;
            OpClose (mk_close_answers VMNET_SUCCESS) 3;
            OpClose (mk_close_answers VMNET_FAILURE) 3] running_1500
           eq_refl)))).
Defined.

Lemma step_buffer_invariant (op : operation) (g : globals) :
  buffer_invariant g -> buffer_invariant (step op g).
Proof.
  unfold buffer_invariant. intros [R L].
  destruct op as [a | a fd | a | a buffer buflen]; simpl.
  - destruct (socketpair_result a) as [fds|] eqn:Hs.
    + destruct (is_success (start_status a)) eqn:Hf.
      * apply is_success_true in Hf.
        rewrite (open_success a g fds Hs Hf). simpl. split; [|auto].
        unfold negotiated_size, to_size_t.
        destruct (start_param a); [apply Z.mod_pos_bound; lia | exact R].
      * assert (Hn : start_status a <> VMNET_SUCCESS)
          by (intros C; rewrite C in Hf; discriminate Hf).
        destruct (open_start_failure_final a g fds Hs Hn) as [F _].
        rewrite F. simpl. auto.
    + rewrite (open_socketpair_failure a g Hs). simpl. auto.
  - destruct (close_final_cases a fd g) as [E|[E|E]]; rewrite E; simpl; auto.
  - destruct (read_final_cases a g) as [E|E]; rewrite E; simpl; auto.
  - rewrite write_final. auto.
Qed.

(** X17.  In every state the adapter can reach from the initial one,
    [max_packet_size] is within the range of [size_t] and the length
    recorded in [read_iov_in] is either 0 or [max_packet_size]: the handler
    never announces to [vmnet_read] a buffer length other than these. *)
Theorem reachable_buffer_invariant (ops : list operation) :
  0 <= max_packet_size (run ops initial_globals) < 2 ^ 64 /\
  (iov_len (read_iov_in (run ops initial_globals)) = 0 \/
   iov_len (read_iov_in (run ops initial_globals)) =
     max_packet_size (run ops initial_globals)).
Proof.
  assert (G : forall g, buffer_invariant g -> buffer_invariant (run ops g)).
  { induction ops as [|op rest IH]; simpl; intros g H; [exact H|].
    apply IH. apply step_buffer_invariant. exact H. }
  apply (G initial_globals). unfold buffer_invariant. simpl. lia.
Qed.

(** ** Egress: the values write returns *)

Lemma write_accepted_retval (a : write_answers) (buffer : pointer)
    (buflen : Z) (g : globals) :
  buflen <= max_packet_size g ->
  retval (macos_vmnet_write a buffer buflen g) =
    if is_success (write_status a)
    then to_ssize_t (if write_count a =? 0 then 0 else buflen)
    else -1.
Proof.
  intros H. unfold macos_vmnet_write, bind, load, call, ret; simpl.
  destruct (buflen >? max_packet_size g) eqn:E; [apply Z.gtb_lt in E; lia|].
  simpl. destruct (is_success (write_status a)); reflexivity.
Qed.

(** X18.  For a buffer of [buflen] bytes, write returns -1, 0 or [buflen]
    and nothing else: it never reports a partial write.  Any non-zero
    packet count left by a successful [vmnet_write], not only 1, gives
    [buflen]; a successful write of an empty buffer returns 0 whatever the
    count. *)
Theorem write_result_values (a : write_answers) (buffer : pointer)
    (buflen : Z) (g : globals) :
  0 <= buflen <= SSIZE_MAX ->
  (retval (macos_vmnet_write a buffer buflen g) = -1 \/
   retval (macos_vmnet_write a buffer buflen g) = 0 \/
   retval (macos_vmnet_write a buffer buflen g) = buflen) /\
  (buflen <= max_packet_size g -> write_status a = VMNET_SUCCESS ->
   write_count a <> 0 ->
   retval (macos_vmnet_write a buffer buflen g) = buflen) /\
  (buflen <= max_packet_size g -> write_status a = VMNET_SUCCESS ->
   buflen = 0 ->
   retval (macos_vmnet_write a buffer buflen g) = 0).
Proof.
  intros Hb. split; [|split].
  - destruct (Z_le_gt_dec buflen (max_packet_size g)) as [Hle|Hgt].
    + rewrite (write_accepted_retval a buffer buflen g Hle).
      destruct (is_success (write_status a)); [|auto].
      destruct (write_count a =? 0); [auto|].
      right; right. apply to_ssize_t_small. exact Hb.
    + rewrite (write_oversize a buffer buflen g Hgt). auto.
  - intros Hle Hs Hc. rewrite (write_accepted_retval a buffer buflen g Hle).
    rewrite Hs. simpl. apply Z.eqb_neq in Hc. rewrite Hc.
    apply to_ssize_t_small. exact Hb.
  - intros Hle Hs Hz. rewrite (write_accepted_retval a buffer buflen g Hle).
    rewrite Hs, Hz. simpl. destruct (write_count a =? 0); reflexivity.
Qed.

Lemma write_result_values_witness :
  retval (macos_vmnet_write (mk_write_answers VMNET_SUCCESS (-3))
                            (Some 20%positive) 64 running_1500) = 64.
Proof.
  assert (Hb : 0 <= 64 <= SSIZE_MAX) by (unfold SSIZE_MAX; lia).
  assert (Hle : 64 <= max_packet_size running_1500)
    by (change (64 <= 1500); lia).
  assert (Hc : write_count (mk_write_answers VMNET_SUCCESS (-3)) <> 0)
    by (simpl; lia).
  exact (proj1 (proj2 (write_result_values
                         (mk_write_answers VMNET_SUCCESS (-3))
                         (Some 20%positive) 64 running_1500 Hb))
           Hle eq_refl Hc).
Defined.

(** X19.  The length write returns passes from [size_t] to [ssize_t].  When
    the negotiated [max_packet_size] admits a length above [SSIZE_MAX], a
    transmitted write of that length returns [buflen - 2^64], a negative
    value; for [buflen = 2^64 - 1] that is -1, the value that reports an
    error. *)
Theorem write_length_above_ssize_max (a : write_answers) (buffer : pointer)
    (buflen : Z) (g : globals) :
  SSIZE_MAX < buflen -> buflen < 2 ^ 64 -> buflen <= max_packet_size g ->
  write_status a = VMNET_SUCCESS -> write_count a <> 0 ->
  retval (macos_vmnet_write a buffer buflen g) = buflen - 2 ^ 64 /\
  retval (macos_vmnet_write a buffer buflen g) < 0.
Proof.
  intros Hlo Hhi Hle Hs Hc.
  rewrite (write_accepted_retval a buffer buflen g Hle), Hs. simpl.
  apply Z.eqb_neq in Hc. rewrite Hc.
  unfold to_ssize_t, to_size_t, SSIZE_MAX in *.
  rewrite Z.mod_small by lia.
  destruct (buflen <=? 2 ^ 63 - 1) eqn:E; [apply Z.leb_le in E; lia|].
  lia.
Qed.

Lemma write_length_above_ssize_max_witness :
  retval (macos_vmnet_write (mk_write_answers VMNET_SUCCESS 1)
            (Some 20%positive) (2 ^ 64 - 1)
            (final (macos_vmnet_open open_ok_huge initial_globals))) = -1.
Proof.
  assert (Hlo : SSIZE_MAX < 2 ^ 64 - 1) by (unfold SSIZE_MAX; lia).
  assert (Hhi : 2 ^ 64 - 1 < 2 ^ 64) by lia.
  assert (Hle : 2 ^ 64 - 1 <=
                max_packet_size
                  (final (macos_vmnet_open open_ok_huge initial_globals)))
    by (change (2 ^ 64 - 1 <= (2 ^ 64 - 1) mod 2 ^ 64);
        rewrite Z.mod_small; lia).
  assert (Hc : write_count (mk_write_answers VMNET_SUCCESS 1) <> 0)
    by (simpl; lia).
  exact (proj1 (write_length_above_ssize_max
                  (mk_write_answers VMNET_SUCCESS 1) (Some 20%positive)
                  (2 ^ 64 - 1)
                  (final (macos_vmnet_open open_ok_huge initial_globals))
                  Hlo Hhi Hle eq_refl Hc)).
Defined.

(** ** The data paths hold nothing *)

(** X20.  A handler invocation or a write acquires nothing and releases
    nothing: whatever is held before it is held after it. *)
Theorem io_holds_no_resource (op : operation) (g : globals)
    (held : list resource) :
  is_io op = true -> held_after (op_calls op g) held = held.
Proof.
  destruct op as [a | a fd | a | a buffer buflen]; simpl; intros H;
    try discriminate H.
  - destruct (is_success (if_status g)) eqn:E.
    + apply is_success_true in E. rewrite (read_guard_open a g E). simpl.
      destruct (is_success (read_status a)); simpl;
        [ destruct (negb (read_count a =? 0) && negb (read_iovcnt a =? 0));
          simpl; [destruct (writev_result a <? 0); simpl|] |];
        rewrite ?app_nil_r; reflexivity.
    + assert (Hn : if_status g <> VMNET_SUCCESS)
        by (intros C; rewrite C in E; discriminate E).
      rewrite (read_guard_closed a g Hn). reflexivity.
  - unfold macos_vmnet_write, bind, load, call, ret; simpl.
    destruct (buflen >? max_packet_size g); simpl;
      [rewrite ?app_nil_r; reflexivity|].
    destruct (is_success (write_status a)); simpl;
      rewrite ?app_nil_r; reflexivity.
Qed.

Lemma io_holds_no_resource_witness :
  held_after
    (op_calls (OpReadEvent (mk_read_answers VMNET_SUCCESS 1 60 1 0 60))
              running_1500)
    (leaked (calls (macos_vmnet_open open_ok_1500 initial_globals))) =
    [ResFd 3; ResFd 4; ResQueue 1; ResBlock 9].
Proof.
  exact (io_holds_no_resource
           (OpReadEvent (mk_read_answers VMNET_SUCCESS 1 60 1 0 60))
           running_1500
           (leaked (calls (macos_vmnet_open open_ok_1500 initial_globals)))
           eq_refl).
Defined.
